(** * Decay discovery and Clebsch-Gordan lookup of SMASH

    A shallow embedding of

    - [src/include/smash/clebschgordan_lookup.h]: the key [ThreeSpins], the
      hash [ThreeSpinHash] and the tabulated [lookup_table] of
      [ClebschGordan];
    - [src/decayactionsfinder.cc]: [DecayActionsFinder::find_actions_in_cell]
      and [DecayActionsFinder::find_final_actions].

    A C++ [double] is an IEEE binary64 value, embedded as Rocq's primitive
    [float]. A C++ [int] is a 32-bit integer, embedded as a [Z]; overflow of
    a signed operation, which C++ leaves undefined, is taken to wrap in
    two's complement as it does on the usual targets, and the wrap-around of
    every operation is written out. *)

From Stdlib Require Import ZArith List Bool Floats.
From stdpp Require Import base option list countable gmap.
Import ListNotations.

#[local] Set Warnings "-inexact-float".
#[local] Open Scope Z_scope.

(** ** Machine numbers *)

Module Int.

(** Two's complement reduction of a mathematical integer to 32 bits. *)
Definition wrap (z : Z) : Z := (z + 2 ^ 31) mod 2 ^ 32 - 2 ^ 31.

Definition add (a b : Z) : Z := wrap (a + b).
Definition sub (a b : Z) : Z := wrap (a - b).
Definition mul (a b : Z) : Z := wrap (a * b).
(** C++ integer division truncates towards zero. *)
Definition div (a b : Z) : Z := wrap (Z.quot a b).
Definition neg (a : Z) : Z := wrap (- a).

(** Conversion of an [int] to [std::size_t] (64 bits, modular). *)
Definition to_size_t (z : Z) : Z := z mod 2 ^ 64.

End Int.

Declare Scope int_scope.
Delimit Scope int_scope with int.
Notation "a + b" := (Int.add a b) : int_scope.
Notation "a - b" := (Int.sub a b) : int_scope.
Notation "a * b" := (Int.mul a b) : int_scope.
Notation "a / b" := (Int.div a b) : int_scope.
Notation "- a" := (Int.neg a) : int_scope.

Definition double : Set := float.
Bind Scope float_scope with double.

(** ** Clebsch-Gordan coefficients: key, hash and table *)

Module ClebschGordan.

(** [struct ThreeSpins]: six doubled isospin quantum numbers. *)
Record ThreeSpins : Set := Spins {
  j1 : Z;  (* first isospin *)
  j2 : Z;  (* second isospin *)
  j3 : Z;  (* third isospin *)
  m1 : Z;  (* z component of first isospin *)
  m2 : Z;  (* z component of second isospin *)
  m3 : Z   (* z component of third isospin *)
}.

Definition tied (s : ThreeSpins) : Z * Z * Z * Z * Z * Z :=
  (j1 s, j2 s, j3 s, m1 s, m2 s, m3 s).

Definition untied (t : Z * Z * Z * Z * Z * Z) : ThreeSpins :=
  let '(a, b, c, d, e, f) := t in Spins a b c d e f.

Definition untied_tied (s : ThreeSpins) : untied (tied s) = s :=
  match s with Spins _ _ _ _ _ _ => eq_refl end.

#[global] Instance ThreeSpins_eq_dec : EqDecision ThreeSpins :=
  ltac:(solve_decision).

#[global] Instance ThreeSpins_countable : Countable ThreeSpins :=
  inj_countable' tied untied untied_tied.

(** [ThreeSpins::operator==]: comparison of the tied members. *)
Definition spins_eqb (a b : ThreeSpins) : bool :=
  bool_decide (tied a = tied b).

(** [ThreeSpinHash::operator()]. *)
Definition ThreeSpinHash (s : ThreeSpins) : Z :=
  let S := (- j1 s + j2 s + j3 s)%int in
  let L := (j1 s - j2 s + j3 s)%int in
  let X := (j1 s - m1 s)%int in
  let B := (j2 s - m2 s)%int in
  let T := (j3 s + m3 s)%int in
  Int.to_size_t
    (L * (24 + L * (50 + L * (35 + L * (10 + L)))) / 120 +
     X * (6 + X * (11 + X * (6 + X))) / 24 + T * (2 + T * (3 + T)) / 6 +
     B * (B + 1) / 2 + S + 1)%int.

(** The physically valid domain of a coupling triple, in doubled quantum
    numbers: non-negative spins obeying the triangle inequalities with an
    even sum, projections in range and of the parity of their spin, and
    conserved projection. *)
Definition valid (s : ThreeSpins) : bool :=
  (0 <=? j1 s) && (0 <=? j2 s) && (0 <=? j3 s) &&
  (Z.abs (j1 s - j2 s) <=? j3 s) && (j3 s <=? j1 s + j2 s) &&
  Z.even (j1 s + j2 s + j3 s) &&
  (Z.abs (m1 s) <=? j1 s) && (Z.abs (m2 s) <=? j2 s) &&
  (Z.abs (m3 s) <=? j3 s) &&
  Z.even (j1 s - m1 s) && Z.even (j2 s - m2 s) && Z.even (j3 s - m3 s) &&
  (m1 s + m2 s =? m3 s).

Definition entry (a b c d e f : Z) (v : double) : ThreeSpins * double :=
  (Spins a b c d e f, v).

(** The initializer list of [lookup_table], in source order. *)
Definition tabulated : list (ThreeSpins * double) := [
  entry    0    0    0    0    0    0  1.00000000000000000;
  entry    0    1    1    0 (-1) (-1)  1.00000000000000022;
  entry    0    1    1    0    1    1  1.00000000000000022;
  entry    0    2    2    0 (-2) (-2)  0.99999999999999989;
  entry    0    2    2    0    0    0  0.99999999999999989;
  entry    0    2    2    0    2    2  0.99999999999999989;
  entry    0    3    3    0 (-3) (-3)  1.00000000000000000;
  entry    0    3    3    0 (-1) (-1)  0.99999999999999989;
  entry    0    3    3    0    1    1  0.99999999999999989;
  entry    0    3    3    0    3    3  1.00000000000000000;
  entry    1    0    1 (-1)    0 (-1)  1.00000000000000022;
  entry    1    0    1    1    0    1  1.00000000000000022;
  entry    1    1    0 (-1)    1    0  (-0.70710678118654757);
  entry    1    1    0    1 (-1)    0  0.70710678118654757;
  entry    1    1    2 (-1) (-1) (-2)  0.99999999999999989;
  entry    1    1    2 (-1)    1    0  0.70710678118654746;
  entry    1    1    2    1 (-1)    0  0.70710678118654746;
  entry    1    1    2    1    1    2  0.99999999999999989;
  entry    1    2    1 (-1)    0 (-1)  (-0.57735026918962584);
  entry    1    2    1 (-1)    2    1  (-0.81649658092772615);
  entry    1    2    1    1 (-2) (-1)  0.81649658092772615;
  entry    1    2    1    1    0    1  0.57735026918962584;
  entry    1    2    3 (-1) (-2) (-3)  1.00000000000000000;
  entry    1    2    3 (-1)    0 (-1)  0.81649658092772615;
  entry    1    2    3 (-1)    2    1  0.57735026918962584;
  entry    1    2    3    1 (-2) (-1)  0.57735026918962584;
  entry    1    2    3    1    0    1  0.81649658092772615;
  entry    1    2    3    1    2    3  1.00000000000000000;
  entry    1    3    2 (-1) (-1) (-2)  (-0.49999999999999983);
  entry    1    3    2 (-1)    1    0  (-0.70710678118654724);
  entry    1    3    2 (-1)    3    2  (-0.86602540378443837);
  entry    1    3    2    1 (-3) (-2)  0.86602540378443837;
  entry    1    3    2    1 (-1)    0  0.70710678118654724;
  entry    1    3    2    1    1    2  0.49999999999999983;
  entry    1    3    4 (-1) (-3) (-4)  1.00000000000000022;
  entry    1    3    4 (-1) (-1) (-2)  0.86602540378443871;
  entry    1    3    4 (-1)    1    0  0.70710678118654746;
  entry    1    3    4 (-1)    3    2  0.49999999999999994;
  entry    1    3    4    1 (-3) (-2)  0.49999999999999994;
  entry    1    3    4    1 (-1)    0  0.70710678118654746;
  entry    1    3    4    1    1    2  0.86602540378443871;
  entry    1    3    4    1    3    4  1.00000000000000022;
  entry    2    0    2 (-2)    0 (-2)  0.99999999999999989;
  entry    2    0    2    0    0    0  0.99999999999999989;
  entry    2    0    2    2    0    2  0.99999999999999989;
  entry    2    1    1 (-2)    1 (-1)  (-0.81649658092772615);
  entry    2    1    1    0 (-1) (-1)  0.57735026918962584;
  entry    2    1    1    0    1    1  (-0.57735026918962584);
  entry    2    1    1    2 (-1)    1  0.81649658092772615;
  entry    2    1    3 (-2) (-1) (-3)  1.00000000000000000;
  entry    2    1    3 (-2)    1 (-1)  0.57735026918962584;
  entry    2    1    3    0 (-1) (-1)  0.81649658092772615;
  entry    2    1    3    0    1    1  0.81649658092772615;
  entry    2    1    3    2 (-1)    1  0.57735026918962584;
  entry    2    1    3    2    1    3  1.00000000000000000;
  entry    2    2    0 (-2)    2    0  0.57735026918962584;
  entry    2    2    0    0    0    0  (-0.57735026918962573);
  entry    2    2    0    2 (-2)    0  0.57735026918962584;
  entry    2    2    2 (-2)    0 (-2)  (-0.70710678118654735);
  entry    2    2    2 (-2)    2    0  (-0.70710678118654735);
  entry    2    2    2    0 (-2) (-2)  0.70710678118654735;
  entry    2    2    2    0    2    2  (-0.70710678118654735);
  entry    2    2    2    2 (-2)    0  0.70710678118654735;
  entry    2    2    2    2    0    2  0.70710678118654735;
  entry    2    2    4 (-2) (-2) (-4)  1.00000000000000022;
  entry    2    2    4 (-2)    0 (-2)  0.70710678118654746;
  entry    2    2    4 (-2)    2    0  0.40824829046386313;
  entry    2    2    4    0 (-2) (-2)  0.70710678118654746;
  entry    2    2    4    0    0    0  0.81649658092772615;
  entry    2    2    4    0    2    2  0.70710678118654746;
  entry    2    2    4    2 (-2)    0  0.40824829046386313;
  entry    2    2    4    2    0    2  0.70710678118654746;
  entry    2    2    4    2    2    4  1.00000000000000022;
  entry    2    3    1 (-2)    1 (-1)  0.40824829046386302;
  entry    2    3    1 (-2)    3    1  0.70710678118654746;
  entry    2    3    1    0 (-1) (-1)  (-0.57735026918962573);
  entry    2    3    1    0    1    1  (-0.57735026918962573);
  entry    2    3    1    2 (-3) (-1)  0.70710678118654746;
  entry    2    3    1    2 (-1)    1  0.40824829046386302;
  entry    2    3    3 (-2) (-1) (-3)  (-0.63245553203367610);
  entry    2    3    3 (-2)    1 (-1)  (-0.73029674334022165);
  entry    2    3    3 (-2)    3    1  (-0.63245553203367610);
  entry    2    3    3    0 (-3) (-3)  0.77459666924148352;
  entry    2    3    3    0 (-1) (-1)  0.25819888974716126;
  entry    2    3    3    0    1    1  (-0.25819888974716126);
  entry    2    3    3    0    3    3  (-0.77459666924148352);
  entry    2    3    3    2 (-3) (-1)  0.63245553203367610;
  entry    2    3    3    2 (-1)    1  0.73029674334022165;
  entry    2    3    3    2    1    3  0.63245553203367610;
  entry    2    3    5 (-2) (-3) (-5)  0.99999999999999989;
  entry    2    3    5 (-2) (-1) (-3)  0.77459666924148318;
  entry    2    3    5 (-2)    1 (-1)  0.54772255750516596;
  entry    2    3    5 (-2)    3    1  0.31622776601683794;
  entry    2    3    5    0 (-3) (-3)  0.63245553203367599;
  entry    2    3    5    0 (-1) (-1)  0.77459666924148318;
  entry    2    3    5    0    1    1  0.77459666924148318;
  entry    2    3    5    0    3    3  0.63245553203367599;
  entry    2    3    5    2 (-3) (-1)  0.31622776601683794;
  entry    2    3    5    2 (-1)    1  0.54772255750516596;
  entry    2    3    5    2    1    3  0.77459666924148318;
  entry    2    3    5    2    3    5  0.99999999999999989;
  entry    3    0    3 (-3)    0 (-3)  1.00000000000000000;
  entry    3    0    3 (-1)    0 (-1)  0.99999999999999989;
  entry    3    0    3    1    0    1  0.99999999999999989;
  entry    3    0    3    3    0    3  1.00000000000000000;
  entry    3    1    2 (-3)    1 (-2)  (-0.86602540378443837);
  entry    3    1    2 (-1) (-1) (-2)  0.49999999999999983;
  entry    3    1    2 (-1)    1    0  (-0.70710678118654724);
  entry    3    1    2    1 (-1)    0  0.70710678118654724;
  entry    3    1    2    1    1    2  (-0.49999999999999983);
  entry    3    1    2    3 (-1)    2  0.86602540378443837;
  entry    3    1    4 (-3) (-1) (-4)  1.00000000000000022;
  entry    3    1    4 (-3)    1 (-2)  0.49999999999999994;
  entry    3    1    4 (-1) (-1) (-2)  0.86602540378443871;
  entry    3    1    4 (-1)    1    0  0.70710678118654746;
  entry    3    1    4    1 (-1)    0  0.70710678118654746;
  entry    3    1    4    1    1    2  0.86602540378443871;
  entry    3    1    4    3 (-1)    2  0.49999999999999994;
  entry    3    1    4    3    1    4  1.00000000000000022;
  entry    3    2    1 (-3)    2 (-1)  0.70710678118654746;
  entry    3    2    1 (-1)    0 (-1)  (-0.57735026918962573);
  entry    3    2    1 (-1)    2    1  0.40824829046386302;
  entry    3    2    1    1 (-2) (-1)  0.40824829046386302;
  entry    3    2    1    1    0    1  (-0.57735026918962573);
  entry    3    2    1    3 (-2)    1  0.70710678118654746;
  entry    3    2    3 (-3)    0 (-3)  (-0.77459666924148352);
  entry    3    2    3 (-3)    2 (-1)  (-0.63245553203367610);
  entry    3    2    3 (-1) (-2) (-3)  0.63245553203367610;
  entry    3    2    3 (-1)    0 (-1)  (-0.25819888974716126);
  entry    3    2    3 (-1)    2    1  (-0.73029674334022165);
  entry    3    2    3    1 (-2) (-1)  0.73029674334022165;
  entry    3    2    3    1    0    1  0.25819888974716126;
  entry    3    2    3    1    2    3  (-0.63245553203367610);
  entry    3    2    3    3 (-2)    1  0.63245553203367610;
  entry    3    2    3    3    0    3  0.77459666924148352;
  entry    3    2    5 (-3) (-2) (-5)  0.99999999999999989;
  entry    3    2    5 (-3)    0 (-3)  0.63245553203367599;
  entry    3    2    5 (-3)    2 (-1)  0.31622776601683794;
  entry    3    2    5 (-1) (-2) (-3)  0.77459666924148318;
  entry    3    2    5 (-1)    0 (-1)  0.77459666924148318;
  entry    3    2    5 (-1)    2    1  0.54772255750516596;
  entry    3    2    5    1 (-2) (-1)  0.54772255750516596;
  entry    3    2    5    1    0    1  0.77459666924148318;
  entry    3    2    5    1    2    3  0.77459666924148318;
  entry    3    2    5    3 (-2)    1  0.31622776601683794;
  entry    3    2    5    3    0    3  0.63245553203367599;
  entry    3    2    5    3    2    5  0.99999999999999989;
  entry    3    3    0 (-3)    3    0  (-0.49999999999999994);
  entry    3    3    0 (-1)    1    0  0.49999999999999994;
  entry    3    3    0    1 (-1)    0  (-0.49999999999999994);
  entry    3    3    0    3 (-3)    0  0.49999999999999994;
  entry    3    3    2 (-3)    1 (-2)  0.54772255750516596;
  entry    3    3    2 (-3)    3    0  0.67082039324993692;
  entry    3    3    2 (-1) (-1) (-2)  (-0.63245553203367599);
  entry    3    3    2 (-1)    1    0  (-0.22360679774997907);
  entry    3    3    2 (-1)    3    2  0.54772255750516596;
  entry    3    3    2    1 (-3) (-2)  0.54772255750516596;
  entry    3    3    2    1 (-1)    0  (-0.22360679774997907);
  entry    3    3    2    1    1    2  (-0.63245553203367599);
  entry    3    3    2    3 (-3)    0  0.67082039324993692;
  entry    3    3    2    3 (-1)    2  0.54772255750516596;
  entry    3    3    4 (-3) (-1) (-4)  (-0.70710678118654746);
  entry    3    3    4 (-3)    1 (-2)  (-0.70710678118654746);
  entry    3    3    4 (-3)    3    0  (-0.49999999999999994);
  entry    3    3    4 (-1) (-3) (-4)  0.70710678118654746;
  entry    3    3    4 (-1)    1    0  (-0.49999999999999994);
  entry    3    3    4 (-1)    3    2  (-0.70710678118654746);
  entry    3    3    4    1 (-3) (-2)  0.70710678118654746;
  entry    3    3    4    1 (-1)    0  0.49999999999999994;
  entry    3    3    4    1    3    4  (-0.70710678118654746);
  entry    3    3    4    3 (-3)    0  0.49999999999999994;
  entry    3    3    4    3 (-1)    2  0.70710678118654746;
  entry    3    3    4    3    1    4  0.70710678118654746;
  entry    3    3    6 (-3) (-3) (-6)  1.00000000000000022;
  entry    3    3    6 (-3) (-1) (-4)  0.70710678118654746;
  entry    3    3    6 (-3)    1 (-2)  0.44721359549995793;
  entry    3    3    6 (-3)    3    0  0.22360679774997894;
  entry    3    3    6 (-1) (-3) (-4)  0.70710678118654746;
  entry    3    3    6 (-1) (-1) (-2)  0.77459666924148352;
  entry    3    3    6 (-1)    1    0  0.67082039324993670;
  entry    3    3    6 (-1)    3    2  0.44721359549995793;
  entry    3    3    6    1 (-3) (-2)  0.44721359549995793;
  entry    3    3    6    1 (-1)    0  0.67082039324993670;
  entry    3    3    6    1    1    2  0.77459666924148352;
  entry    3    3    6    1    3    4  0.70710678118654746;
  entry    3    3    6    3 (-3)    0  0.22360679774997894;
  entry    3    3    6    3 (-1)    2  0.44721359549995793;
  entry    3    3    6    3    1    4  0.70710678118654746;
  entry    3    3    6    3    3    6  1.00000000000000022
]%float.

(** [std::unordered_map<ThreeSpins, double, ThreeSpinHash>]: a finite map
    keyed up to [operator==]; the initializer list keeps the first of two
    equal keys. *)
Definition lookup_table : gmap ThreeSpins double := list_to_map tabulated.

(** The memo state: the table together with a count of the evaluations of
    the analytic formula, kept for instrumentation only. *)
Record Memo : Type := mkMemo {
  table : gmap ThreeSpins double;
  analytic_calls : nat
}.

Definition initial : Memo := mkMemo lookup_table 0.

Section Coefficient.

(** [ClebschGordan::calculate_coefficient] is declared in the header and
    defined elsewhere: a deterministic function of its six arguments. *)
Variable calculate_coefficient : Z -> Z -> Z -> Z -> Z -> Z -> double.

(** Modelled from the spec: [ClebschGordan::coefficient], whose body
    (clebschgordan.cc) is not among the sources. Look the six-integer key
    up in the table; if present return the stored value, otherwise
    calculate the coefficient, store it under the key and return it. *)
Definition coefficient (j_a j_b j_c m_a m_b m_c : Z) (st : Memo)
  : double * Memo :=
  let key := Spins j_a j_b j_c m_a m_b m_c in
  match table st !! key with
  | Some stored => (stored, st)
  | None =>
      let result := calculate_coefficient j_a j_b j_c m_a m_b m_c in
      (result, mkMemo (<[key := result]> (table st))
                      (S (analytic_calls st)))
  end.

Definition coefficient_at (k : ThreeSpins) : Memo -> double * Memo :=
  coefficient (j1 k) (j2 k) (j3 k) (m1 k) (m2 k) (m3 k).

(** A sequence of calls made by client code, results discarded. *)
Fixpoint calls (ks : list ThreeSpins) (st : Memo) : Memo :=
  match ks with
  | [] => st
  | k :: ks' => calls ks' (snd (coefficient_at k st))
  end.

End Coefficient.

End ClebschGordan.

(** ** Decay finder: data model *)

Module DecayActionsFinder.

#[local] Open Scope float_scope.

(** Modelled from the spec: [DecayBranch] (processbranch.h is not among the
    sources): a decay channel identifier plus a partial decay width. *)
Record DecayBranch : Set := mkBranch {
  channel : Z;
  weight : double
}.

Definition DecayBranchList : Set := list DecayBranch.

(** Modelled from the spec: [total_weight<DecayBranch>] (processbranch.h is
    not among the sources): the summed width of a channel list,
    accumulated from [0.] in list order. *)
Definition total_weight (l : DecayBranchList) : double :=
  fold_left (fun sum b => sum + weight b) l 0.

(** Modelled from the spec: [ParticleType] (particletype.h is not among the
    sources): the catalog interface [is_stable], [get_partial_widths] and
    [get_partial_widths_hadronic], both mass dependent. *)
Record ParticleType : Set := mkType {
  pdgcode : Z;
  is_stable : bool;
  get_partial_widths : double -> DecayBranchList;
  get_partial_widths_hadronic : double -> DecayBranchList
}.

(** Modelled from the spec: [FourVector] (fourvector.h is not among the
    sources): a four-position with time component [x0]. *)
Record FourVector : Set := mkFourVector {
  x0 : double;
  x1 : double;
  x2 : double;
  x3 : double
}.

(** Modelled from the spec: [ParticleData] (particledata.h is not among the
    sources): identity, type reference, four-position, effective mass,
    formation time and inverse gamma, all read-only here. *)
Record ParticleData : Set := mkParticle {
  id : Z;
  type : ParticleType;
  position : FourVector;
  effective_mass : double;
  formation_time : double;
  inverse_gamma : double
}.

Definition ParticleList : Set := list ParticleData.
Definition Particles : Set := list ParticleData.

(** Modelled from the spec: [DecayAction] (decayaction.h is not among the
    sources): the source particle, a decay time relative to the current
    step and a channel list; constructed from particle and time with no
    channels. *)
Record DecayAction : Set := mkAction {
  incoming_particle : ParticleData;
  decay_time : double;
  decay_channels : DecayBranchList
}.

Definition new_DecayAction (p : ParticleData) (time : double) : DecayAction :=
  mkAction p time [].

(** Modelled from the spec: [DecayAction::add_decays]: appends channel
    information to the action. *)
Definition add_decays (pv : DecayBranchList) (act : DecayAction)
  : DecayAction :=
  mkAction (incoming_particle act) (decay_time act)
           (decay_channels act ++ pv).

Definition ActionList : Set := list DecayAction.

(** [actions.emplace_back(std::move(act))] when an action was made. *)
Definition emplace_back (actions : ActionList) (act : option DecayAction)
  : ActionList :=
  match act with
  | Some a => actions ++ [a]
  | None => actions
  end.

(** What a call does as seen by its caller: it returns a value, or an
    assertion aborts it. *)
Inductive Outcome (A : Type) : Type :=
| Returned (a : A)
| AssertionFailed.
Arguments Returned {A} a.
Arguments AssertionFailed {A}.

Section Finder.

(** [hbarc] of constants.h, which is not among the sources. *)
Variable hbarc : double.

(** The process-wide random engine of random.h, which is not among the
    sources: [Random::exponential<double>(lambda)] draws a value and
    advances the engine. *)
Variable Engine : Type.
Variable exponential : double -> Engine -> double * Engine.

Definition hadronic_width (p : ParticleData) : double :=
  total_weight (get_partial_widths_hadronic (type p) (effective_mass p)).

(** The argument handed to the sampler for a particle. *)
Definition decay_rate (p : ParticleData) : double :=
  let one_over_hbarc := 1 / hbarc in
  one_over_hbarc * inverse_gamma p * hadronic_width p.

(** One iteration of the loop of [find_actions_in_cell]. *)
Definition cell_step (dt : double) (p : ParticleData) (g : Engine)
  : option DecayAction * Engine :=
  if is_stable (type p) then (None, g)
  else
    let processes :=
      get_partial_widths_hadronic (type p) (effective_mass p) in
    let width := total_weight processes in
    if negb (0 <? width) then (None, g)
    else
      let one_over_hbarc := 1 / hbarc in
      let (decay_time, g') :=
        exponential (one_over_hbarc * inverse_gamma p * width) g in
      if (decay_time <? dt) &&
         (formation_time p <? x0 (position p) + decay_time)
      then
        let act := new_DecayAction p decay_time in
        (Some (add_decays processes act), g')
      else (None, g').

Fixpoint cell_loop (dt : double) (search_list : ParticleList)
         (actions : ActionList) (g : Engine) : ActionList * Engine :=
  match search_list with
  | [] => (actions, g)
  | p :: rest =>
      let (act, g') := cell_step dt p g in
      cell_loop dt rest (emplace_back actions act) g'
  end.

(** [DecayActionsFinder::find_actions_in_cell]. *)
Definition find_actions_in_cell (search_list : ParticleList) (dt : double)
           (g : Engine) : ActionList * Engine :=
  cell_loop dt search_list [] g.

(** The body of [find_actions_in_cell] has no [assert], [throw] or other
    abort: every call runs to its [return]. *)
Definition call_find_actions_in_cell (search_list : ParticleList)
           (dt : double) (g : Engine) : Outcome (ActionList * Engine) :=
  Returned (find_actions_in_cell search_list dt g).

End Finder.

(** One iteration of the loop of [find_final_actions]. *)
Definition final_step (p : ParticleData) : option DecayAction :=
  if is_stable (type p) then None
  else
    let act := new_DecayAction p 0 in
    Some (add_decays (get_partial_widths (type p) (effective_mass p)) act).

Fixpoint final_loop (search_list : Particles) (actions : ActionList)
  : ActionList :=
  match search_list with
  | [] => actions
  | p :: rest => final_loop rest (emplace_back actions (final_step p))
  end.

(** [DecayActionsFinder::find_final_actions]; the flag is not named in the
    source and never read. *)
Definition find_final_actions (search_list : Particles) (only_res : bool)
  : ActionList :=
  final_loop search_list [].

(** A scripted engine for examples: the draws are read off a tape; an
    exhausted tape, like an entry that is not a non-negative number, yields
    [infinity]. The rate is ignored. *)
Definition tape_exponential (lambda : double) (g : list double)
  : double * list double :=
  match g with
  | [] => (infinity, [])
  | t :: g' => (if 0 <=? t then t else infinity, g')
  end.

Arguments cell_step hbarc {Engine} exponential dt p g.
Arguments cell_loop hbarc {Engine} exponential dt search_list actions g.
Arguments find_actions_in_cell hbarc {Engine} exponential search_list dt g.
Arguments call_find_actions_in_cell hbarc {Engine} exponential search_list dt g.

End DecayActionsFinder.

(** ** Concrete particles used in examples *)

Module Examples.

Import DecayActionsFinder.
#[local] Open Scope float_scope.

Definition hbarc : double := 0.197327053.

(** A resonance whose channels, one hadronic and one dilepton, open above a
    mass threshold. *)
Definition rho_type : ParticleType :=
  mkType 113 false
    (fun m => if 0.28 <? m then [mkBranch 1 0.149; mkBranch 2 0.000007] else [])
    (fun m => if 0.28 <? m then [mkBranch 1 0.149] else []).

Definition proton_type : ParticleType :=
  mkType 2212 true (fun _ => []) (fun _ => []).

Definition origin (t : double) : FourVector := mkFourVector t 0 0 0.

Definition rho : ParticleData :=
  mkParticle 1 rho_type (origin 1) 0.776 0.5 0.8.

(** The same resonance far below its decay threshold. *)
Definition light_rho : ParticleData :=
  mkParticle 2 rho_type (origin 1) 0.2 0.5 0.8.

(** A resonance that forms exactly at time [1.05]. *)
Definition unformed_rho : ParticleData :=
  mkParticle 3 rho_type (origin 1) 0.776 1.05 0.8.

Definition proton : ParticleData :=
  mkParticle 4 proton_type (origin 1) 0.938 0 1.

End Examples.

(** ** Facts about binary64 comparisons *)

Module DoubleFacts.

#[local] Open Scope float_scope.

Lemma SFeqb_not_SFltb (a b : spec_float) :
  SFeqb a b = true -> SFltb a b = false.
Proof.
  unfold SFeqb, SFltb. destruct (SFcompare a b) as [[ | | ] | ]; congruence.
Qed.

Lemma SF_nonneg_not_below_nonpos (a b : spec_float) :
  SFleb (S754_zero false) a = true ->
  SFleb b (S754_zero false) = true ->
  SFltb a b = false.
Proof.
  destruct a as [[ | ] | [ | ] | | [ | ] m e];
    destruct b as [[ | ] | [ | ] | | [ | ] m' e'];
    cbv; congruence.
Qed.

(** [a == b] excludes [a < b], also for zeros of either sign. *)
Lemma eqb_not_ltb (a b : double) : (a =? b) = true -> (a <? b) = false.
Proof.
  rewrite FloatAxioms.eqb_spec, FloatAxioms.ltb_spec.
  apply SFeqb_not_SFltb.
Qed.

(** Nothing that is [>= 0] lies below something that is [<= 0]. *)
Lemma nonneg_not_below_nonpos (t dt : double) :
  (0 <=? t) = true -> (dt <=? 0) = true -> (t <? dt) = false.
Proof.
  rewrite !FloatAxioms.leb_spec, FloatAxioms.ltb_spec. apply SF_nonneg_not_below_nonpos.
Qed.

End DoubleFacts.

(** ** The loops as functions of the input list *)

Section FinderFacts.

Import DecayActionsFinder.
#[local] Open Scope float_scope.

Variable hbarc : double.
Variable Engine : Type.
Variable exponential : double -> Engine -> double * Engine.

#[local] Abbreviation step := (cell_step hbarc exponential).
#[local] Abbreviation find := (find_actions_in_cell hbarc exponential).
#[local] Abbreviation unstable := (fun p => negb (is_stable (type p))).
#[local] Abbreviation hadronic p :=
  (get_partial_widths_hadronic (type p) (effective_mass p)).
#[local] Abbreviation full p :=
  (get_partial_widths (type p) (effective_mass p)).

Lemma emplace_back_app (acc : ActionList) (o : option DecayAction) :
  emplace_back acc o = acc ++ option_list o.
Proof. destruct o; simpl; [reflexivity | now rewrite app_nil_r]. Qed.

Lemma cell_loop_acc (dt : double) (l : ParticleList) :
  forall (acc : ActionList) (g : Engine),
    cell_loop hbarc exponential dt l acc g =
    (acc ++ fst (cell_loop hbarc exponential dt l [] g),
     snd (cell_loop hbarc exponential dt l [] g)).
Proof.
  induction l as [ | p l IH]; intros acc g; simpl.
  - now rewrite app_nil_r.
  - destruct (step dt p g) as [o g'].
    rewrite (IH (emplace_back acc o)), (IH (emplace_back [] o)).
    rewrite !emplace_back_app. simpl. now rewrite app_assoc.
Qed.

Lemma find_nil (dt : double) (g : Engine) : find [] dt g = ([], g).
Proof. reflexivity. Qed.

Lemma find_cons (p : ParticleData) (l : ParticleList) (dt : double)
      (g : Engine) :
  find (p :: l) dt g =
  (option_list (fst (step dt p g)) ++ fst (find l dt (snd (step dt p g))),
   snd (find l dt (snd (step dt p g)))).
Proof.
  unfold find_actions_in_cell. simpl.
  destruct (step dt p g) as [o g']. rewrite cell_loop_acc.
  now rewrite emplace_back_app.
Qed.

Lemma find_app (l1 l2 : ParticleList) (dt : double) :
  forall g : Engine,
    find (l1 ++ l2) dt g =
    (fst (find l1 dt g) ++ fst (find l2 dt (snd (find l1 dt g))),
     snd (find l2 dt (snd (find l1 dt g)))).
Proof.
  induction l1 as [ | p l1 IH]; intros g.
  - simpl. now destruct (find l2 dt g).
  - rewrite <- app_comm_cons, !find_cons, IH. simpl.
    now rewrite app_assoc.
Qed.

Lemma step_stable (dt : double) (p : ParticleData) (g : Engine) :
  is_stable (type p) = true -> step dt p g = (None, g).
Proof. intros H. unfold cell_step. now rewrite H. Qed.

Lemma step_closed (dt : double) (p : ParticleData) (g : Engine) :
  is_stable (type p) = false ->
  (0 <? hadronic_width p) = false ->
  step dt p g = (None, g).
Proof.
  intros Hu Hw. unfold cell_step, hadronic_width in *. now rewrite Hu, Hw.
Qed.

Lemma step_open (dt : double) (p : ParticleData) (g : Engine) :
  is_stable (type p) = false ->
  (0 <? hadronic_width p) = true ->
  let draw := exponential (decay_rate hbarc p) g in
  step dt p g =
  (if (fst draw <? dt) && (formation_time p <? x0 (position p) + fst draw)
   then Some (mkAction p (fst draw) (hadronic p))
   else None,
   snd draw).
Proof.
  intros Hu Hw. unfold cell_step, decay_rate, hadronic_width in *.
  rewrite Hu, Hw. simpl.
  destruct (exponential _ g) as [t g']. simpl.
  now destruct ((t <? dt) && _).
Qed.

Lemma step_unstable (dt : double) (p : ParticleData) (g : Engine)
      (a : DecayAction) :
  fst (step dt p g) = Some a ->
  incoming_particle a = p /\ is_stable (type p) = false.
Proof.
  unfold cell_step. destruct (is_stable (type p)); [discriminate | ].
  destruct (negb _); [discriminate | ].
  destruct (exponential _ g) as [t g'].
  destruct (_ && _); [ | discriminate].
  simpl. intros [= <-]. now split.
Qed.

Lemma final_loop_acc (l : Particles) :
  forall acc : ActionList,
    final_loop l acc = acc ++ final_loop l [].
Proof.
  induction l as [ | p l IH]; intros acc; simpl.
  - now rewrite app_nil_r.
  - rewrite (IH (emplace_back acc _)), (IH (emplace_back [] _)).
    rewrite !emplace_back_app. simpl. now rewrite app_assoc.
Qed.

Lemma final_cons (p : ParticleData) (l : Particles) (b : bool) :
  find_final_actions (p :: l) b =
  option_list (final_step p) ++ find_final_actions l b.
Proof.
  unfold find_final_actions. simpl. rewrite final_loop_acc.
  now rewrite emplace_back_app.
Qed.

Lemma final_app (l1 l2 : Particles) (b : bool) :
  find_final_actions (l1 ++ l2) b =
  find_final_actions l1 b ++ find_final_actions l2 b.
Proof.
  induction l1 as [ | p l1 IH]; [reflexivity | ].
  rewrite <- app_comm_cons, !final_cons, IH. now rewrite app_assoc.
Qed.

Lemma final_step_unstable (p : ParticleData) (a : DecayAction) :
  final_step p = Some a ->
  incoming_particle a = p /\ is_stable (type p) = false.
Proof.
  unfold final_step. destruct (is_stable (type p)); [discriminate | ].
  intros [= <-]. now split.
Qed.

(** ** Per-step discovery *)

(** C1: for a particle of the input list of [find_actions_in_cell] whose type
    is unstable and whose summed hadronic width at its effective mass is
    strictly positive, an action is produced for it if and only if the decay
    time [t] drawn for it satisfies [0 <= t < dt] and
    [formation_time < x0 + t]; the list returned is the actions of the
    particles before it, this action or nothing, and the actions of the
    particles after it. A formation time equal to the decay instant is
    rejected; a strictly smaller one leaves only [t < dt] to decide. The
    draw is non-negative, as the sampler promises. *)
Theorem find_actions_in_cell_decision
        (before after : ParticleList) (p : ParticleData) (dt : double)
        (g : Engine) :
  is_stable (type p) = false ->
  (0 <? hadronic_width p) = true ->
  let reached := find before dt g in
  let draw := exponential (decay_rate hbarc p) (snd reached) in
  let t := fst draw in
  let instant := x0 (position p) + t in
  let rest := find after dt (snd draw) in
  let decays :=
    (0 <=? t) && (t <? dt) && (formation_time p <? instant) in
  (0 <=? t) = true ->
  (is_Some (fst (step dt p (snd reached))) <-> decays = true) /\
  find (before ++ p :: after) dt g =
    (fst reached
       ++ (if decays then [mkAction p t (hadronic p)] else [])
       ++ fst rest,
     snd rest) /\
  ((formation_time p =? instant) = true -> decays = false) /\
  ((formation_time p <? instant) = true -> decays = (t <? dt)).
Proof.
  intros Hu Hw reached draw t instant rest decays Ht.
  assert (Hstep : step dt p (snd reached) =
                  (if decays then Some (mkAction p t (hadronic p)) else None,
                   snd draw)).
  { rewrite (step_open dt p (snd reached) Hu Hw). subst decays. simpl.
    fold draw. fold t. fold instant. now rewrite Ht. }
  repeat split.
  - rewrite Hstep. simpl. destruct decays; [reflexivity | ].
    intros [a Ha]. discriminate.
  - rewrite Hstep. simpl. destruct decays; [eauto | discriminate].
  - rewrite find_app, find_cons. fold reached. rewrite Hstep. simpl.
    fold rest. now destruct decays.
  - intros Heq. subst decays.
    rewrite (DoubleFacts.eqb_not_ltb _ _ Heq). now rewrite andb_false_r.
  - intros Hlt. subst decays. rewrite Ht, Hlt. simpl. now rewrite andb_true_r.
Qed.

(** C6: an unstable particle whose summed hadronic width at its effective
    mass is not strictly positive is passed over: its iteration makes no
    action and draws nothing, the call returns, and the result is that of
    the list without the particle. *)
Theorem closed_particle_is_skipped
        (before after : ParticleList) (p : ParticleData) (dt : double)
        (g : Engine) :
  is_stable (type p) = false ->
  (0 <? hadronic_width p) = false ->
  (forall g' : Engine, step dt p g' = (None, g')) /\
  find (before ++ p :: after) dt g = find (before ++ after) dt g /\
  call_find_actions_in_cell hbarc exponential (before ++ p :: after) dt g =
    Returned (find (before ++ after) dt g).
Proof.
  intros Hu Hw.
  assert (Hfind : find (before ++ p :: after) dt g =
                  find (before ++ after) dt g).
  { rewrite !find_app, find_cons, (step_closed dt p _ Hu Hw). reflexivity. }
  split; [ | split].
  - intros g'. now apply step_closed.
  - exact Hfind.
  - unfold call_find_actions_in_cell. now rewrite Hfind.
Qed.

(** C3: a particle whose type is stable contributes no action to the output
    of [find_actions_in_cell] or of [find_final_actions]: every action
    returned belongs to an unstable particle, and dropping the stable
    particles from the input changes neither result. *)
Theorem stable_particles_make_no_action
        (l : ParticleList) (dt : double) (g : Engine) (only_res : bool) :
  Forall (fun a => is_stable (type (incoming_particle a)) = false)
         (fst (find l dt g)) /\
  Forall (fun a => is_stable (type (incoming_particle a)) = false)
         (find_final_actions l only_res) /\
  find (List.filter unstable l) dt g = find l dt g /\
  find_final_actions (List.filter unstable l) only_res =
    find_final_actions l only_res.
Proof.
  repeat split.
  - revert g. induction l as [ | p l IH]; intros g.
    + constructor.
    + rewrite find_cons. simpl. apply Forall_app. split; [ | apply IH].
      destruct (fst (step dt p g)) as [a | ] eqn:Hs; [ | constructor].
      destruct (step_unstable dt p g a Hs) as [Hin Hu].
      simpl. constructor; [now rewrite Hin | constructor].
  - induction l as [ | p l IH]; [constructor | ].
    rewrite final_cons. apply Forall_app. split; [ | exact IH].
    destruct (final_step p) as [a | ] eqn:Hs; [ | constructor].
    destruct (final_step_unstable p a Hs) as [Hin Hu].
    simpl. constructor; [now rewrite Hin | constructor].
  - revert g. induction l as [ | p l IH]; intros g; [reflexivity | ].
    simpl. destruct (is_stable (type p)) eqn:Hst; simpl.
    + rewrite IH, find_cons, (step_stable dt p g Hst). simpl.
      now destruct (find l dt g).
    + rewrite !find_cons, IH. reflexivity.
  - induction l as [ | p l IH]; [reflexivity | ].
    simpl. destruct (is_stable (type p)) eqn:Hst; simpl.
    + rewrite IH, final_cons. unfold final_step. now rewrite Hst.
    + rewrite !final_cons, IH. reflexivity.
Qed.

(** C10: both searches keep the order of their input: the particles of the
    actions returned are a subsequence of the input list, in the same
    order, and the result for a list cut in two is the result for the first
    part followed by the result for the second. *)
Theorem actions_follow_input_order
        (l1 l2 : ParticleList) (dt : double) (g : Engine)
        (only_res : bool) :
  sublist (map incoming_particle (fst (find (l1 ++ l2) dt g))) (l1 ++ l2) /\
  fst (find (l1 ++ l2) dt g) =
    fst (find l1 dt g) ++ fst (find l2 dt (snd (find l1 dt g))) /\
  map incoming_particle (find_final_actions (l1 ++ l2) only_res) =
    List.filter unstable (l1 ++ l2) /\
  sublist (map incoming_particle (find_final_actions (l1 ++ l2) only_res))
          (l1 ++ l2) /\
  find_final_actions (l1 ++ l2) only_res =
    find_final_actions l1 only_res ++ find_final_actions l2 only_res.
Proof.
  assert (Hcell : forall l g', sublist (map incoming_particle
                                          (fst (find l dt g'))) l).
  { induction l as [ | p l IH]; intros g'.
    - constructor.
    - rewrite find_cons. simpl.
      destruct (fst (step dt p g')) as [a | ] eqn:Hs; simpl.
      + destruct (step_unstable dt p g' a Hs) as [-> _].
        apply sublist_skip, IH.
      + apply sublist_cons, IH. }
  assert (Hfinal : forall l, map incoming_particle
                               (find_final_actions l only_res) =
                             List.filter unstable l).
  { induction l as [ | p l IH]; [reflexivity | ].
    rewrite final_cons, map_app, IH. unfold final_step. simpl.
    now destruct (is_stable (type p)). }
  repeat split.
  - apply Hcell.
  - now rewrite find_app.
  - apply Hfinal.
  - rewrite Hfinal. generalize (l1 ++ l2). intros l.
    induction l as [ | p l IH]; simpl; [constructor | ].
    destruct (negb _); [now apply sublist_skip | now apply sublist_cons].
  - apply final_app.
Qed.

(** C7, as the code has it: [find_actions_in_cell] checks nothing about
    [dt]. Called with [dt <= 0] it returns all the same, and the draws being
    non-negative none of them lies below [dt]: the list returned is empty. *)
Theorem nonpositive_step_returns_nothing
        (l : ParticleList) (dt : double) (g : Engine) :
  (dt <=? 0) = true ->
  (forall (lambda : double) (g' : Engine),
      (0 <=? fst (exponential lambda g')) = true) ->
  call_find_actions_in_cell hbarc exponential l dt g =
    Returned ([], snd (find l dt g)).
Proof.
  intros Hdt Hpos. unfold call_find_actions_in_cell. f_equal.
  revert g. induction l as [ | p l IH]; intros g; [reflexivity | ].
  rewrite find_cons.
  assert (Hs : fst (step dt p g) = None).
  { destruct (is_stable (type p)) eqn:Hst.
    - now rewrite step_stable.
    - destruct (0 <? hadronic_width p) eqn:Hw.
      + rewrite (step_open dt p g Hst Hw). simpl.
        now rewrite (DoubleFacts.nonneg_not_below_nonpos _ _ (Hpos _ _) Hdt).
      + now rewrite step_closed. }
  rewrite Hs. simpl. rewrite IH. reflexivity.
Qed.

(** ** Forced final sweep *)

(** C2, as the code has it: on a list of unstable particles only,
    [find_final_actions] returns one action per particle, in order, each
    with decay time [0] and with the full (not the hadronic) channel list of
    the particle at its effective mass, whatever the formation time; that
    list is not checked, so the action's channels are non-empty exactly when
    the full channel list is. *)
Theorem find_final_actions_complete (l : Particles) (only_res : bool) :
  Forall (fun p => is_stable (type p) = false) l ->
  find_final_actions l only_res =
    map (fun p => mkAction p 0 (full p)) l /\
  length (find_final_actions l only_res) = length l /\
  Forall (fun a => decay_time a = 0 /\
                   decay_channels a = full (incoming_particle a) /\
                   (decay_channels a <> [] <->
                    full (incoming_particle a) <> []))
         (find_final_actions l only_res).
Proof.
  intros Hall.
  assert (Heq : find_final_actions l only_res =
                map (fun p => mkAction p 0 (full p)) l).
  { induction Hall as [ | p l Hp _ IH]; [reflexivity | ].
    rewrite final_cons, IH. unfold final_step. now rewrite Hp. }
  split; [exact Heq | ]. rewrite Heq. split.
  - apply length_map.
  - clear. induction l as [ | p l IH]; constructor; [ | exact IH].
    simpl. tauto.
Qed.

(** C9: the flag handed to [find_final_actions] has no influence on the
    list it returns. *)
Theorem find_final_actions_ignores_flag (l : Particles) (b1 b2 : bool) :
  find_final_actions l b1 = find_final_actions l b2.
Proof. reflexivity. Qed.

End FinderFacts.

(** [ThreeSpins::operator==] is equality of keys, which is what the finite
    map compares keys with. *)
Lemma spins_eqb_eq (a b : ClebschGordan.ThreeSpins) :
  ClebschGordan.spins_eqb a b = true <-> a = b.
Proof.
  unfold ClebschGordan.spins_eqb. rewrite bool_decide_eq_true. split.
  - intros H.
    rewrite <- (ClebschGordan.untied_tied a), <- (ClebschGordan.untied_tied b).
    now rewrite H.
  - now intros ->.
Qed.

(** ** Examples of the two searches *)

Section FinderExamples.

Import DecayActionsFinder Examples.
#[local] Open Scope float_scope.

Lemma tape_exponential_nonneg (lambda : double) (g : list double) :
  (0 <=? fst (tape_exponential lambda g)) = true.
Proof.
  destruct g as [ | t g']; simpl; [reflexivity | ].
  destruct (0 <=? t) eqn:Ht; [exact Ht | reflexivity].
Qed.

(** The resonance decays after [0.05] in a step of [0.1]; the stable proton
    before it and the resonance forming exactly at the decay instant do not. *)
Lemma find_actions_in_cell_decision_example :
  find_actions_in_cell hbarc tape_exponential
    ([proton] ++ rho :: [unformed_rho]) 0.1 [0.05; 0.05] =
  ([mkAction rho 0.05 [mkBranch 1 0.149]], []).
Proof.
  destruct (find_actions_in_cell_decision hbarc _ tape_exponential
              [proton] [unformed_rho] rho 0.1 [0.05; 0.05]
              eq_refl eq_refl eq_refl) as (_ & Hfind & _).
  exact Hfind.
Defined.

(** A resonance below its threshold is passed over, and the one after it
    still gets the first draw. *)
Lemma closed_particle_is_skipped_example :
  find_actions_in_cell hbarc tape_exponential
    ([proton] ++ light_rho :: [rho]) 0.1 [0.05] =
  ([mkAction rho 0.05 [mkBranch 1 0.149]], []).
Proof.
  destruct (closed_particle_is_skipped hbarc _ tape_exponential
              [proton] [rho] light_rho 0.1 [0.05] eq_refl eq_refl)
    as (_ & Hfind & _).
  exact Hfind.
Defined.

(** With a step of [0] the call returns an empty list. *)
Lemma nonpositive_step_returns_nothing_example :
  call_find_actions_in_cell hbarc tape_exponential [rho; proton; rho] 0
    [0.05; 0.05] =
  Returned ([], []).
Proof.
  exact (nonpositive_step_returns_nothing hbarc _ tape_exponential
           [rho; proton; rho] 0 [0.05; 0.05] eq_refl
           tape_exponential_nonneg).
Defined.

(** C7, as stated, fails: called with [dt = 0], and with [dt = -0.1], on a
    resonance whose draw is [0.05], [find_actions_in_cell] returns (an empty
    list); no assertion stops it. *)
Lemma nonpositive_step_is_not_refused :
  (0 <=? 0) = true /\ (-0.1 <=? 0) = true /\
  call_find_actions_in_cell hbarc tape_exponential [rho] 0 [0.05] =
    Returned ([], []) /\
  call_find_actions_in_cell hbarc tape_exponential [rho] (-0.1) [0.05] =
    Returned ([], []) /\
  call_find_actions_in_cell hbarc tape_exponential [rho] 0 [0.05] <>
    AssertionFailed /\
  call_find_actions_in_cell hbarc tape_exponential [rho] (-0.1) [0.05] <>
    AssertionFailed.
Proof. repeat split; try reflexivity; discriminate. Qed.

(** The final sweep of three resonances, one of them below threshold. *)
Lemma find_final_actions_complete_example :
  find_final_actions [rho; light_rho; unformed_rho] true =
  [mkAction rho 0 [mkBranch 1 0.149; mkBranch 2 0.000007];
   mkAction light_rho 0 [];
   mkAction unformed_rho 0 [mkBranch 1 0.149; mkBranch 2 0.000007]].
Proof.
  destruct (find_final_actions_complete [rho; light_rho; unformed_rho] true)
    as (Heq & _).
  - repeat constructor.
  - exact Heq.
Defined.

(** C2, as stated, fails: a resonance below the threshold of all its
    channels is unstable, and the final sweep gives it an action whose
    channel list is empty. *)
Lemma find_final_actions_empty_channels :
  Forall (fun p => is_stable (type p) = false) [light_rho] /\
  find_final_actions [light_rho] true = [mkAction light_rho 0 []] /\
  ~ Forall (fun a => decay_channels a <> [])
      (find_final_actions [light_rho] true).
Proof.
  split; [repeat constructor | ]. split; [reflexivity | ].
  intros H. inversion H as [ | a l Ha _]. now apply Ha.
Qed.

End FinderExamples.

(** ** The coupling cache *)

Section CoefficientFacts.

Import ClebschGordan.
#[local] Open Scope float_scope.

Variable calculate_coefficient : Z -> Z -> Z -> Z -> Z -> Z -> double.

#[local] Abbreviation coeff := (coefficient_at calculate_coefficient).
#[local] Abbreviation run := (calls calculate_coefficient).

Lemma coefficient_hit (k : ThreeSpins) (st : Memo) (v : double) :
  table st !! k = Some v -> coeff k st = (v, st).
Proof.
  intros H. destruct k. unfold coefficient_at, coefficient. simpl.
  now rewrite H.
Qed.

Lemma coefficient_miss (k : ThreeSpins) (st : Memo) :
  table st !! k = None ->
  coeff k st =
  (calculate_coefficient (j1 k) (j2 k) (j3 k) (m1 k) (m2 k) (m3 k),
   mkMemo (<[k := calculate_coefficient (j1 k) (j2 k) (j3 k)
                                        (m1 k) (m2 k) (m3 k)]> (table st))
          (S (analytic_calls st))).
Proof.
  intros H. destruct k. unfold coefficient_at, coefficient. simpl.
  now rewrite H.
Qed.

(** After a call the key holds the value returned. *)
Lemma coefficient_stored (k : ThreeSpins) (st : Memo) :
  table (snd (coeff k st)) !! k = Some (fst (coeff k st)).
Proof.
  destruct (table st !! k) as [v | ] eqn:H.
  - now rewrite (coefficient_hit k st v H).
  - rewrite (coefficient_miss k st H). simpl. apply lookup_insert_eq.
Qed.

(** A call leaves every stored value as it is. *)
Lemma coefficient_keeps (k k' : ThreeSpins) (st : Memo) (v : double) :
  table st !! k' = Some v -> table (snd (coeff k st)) !! k' = Some v.
Proof.
  intros Hk'. destruct (table st !! k) as [w | ] eqn:H.
  - now rewrite (coefficient_hit k st w H).
  - rewrite (coefficient_miss k st H). simpl.
    rewrite lookup_insert_ne; [exact Hk' | ]. congruence.
Qed.

Lemma calls_keep (ks : list ThreeSpins) :
  forall (st : Memo) (k' : ThreeSpins) (v : double),
    table st !! k' = Some v -> table (run ks st) !! k' = Some v.
Proof.
  induction ks as [ | k ks IH]; intros st k' v H; simpl; [exact H | ].
  apply IH. now apply coefficient_keeps.
Qed.

(** C5: two calls of [coefficient] with the same six integers, whatever
    other calls lie between them, return the same value; the second call
    finds the value stored, so it neither evaluates the analytic formula nor
    changes the table; and a value once stored under a key stays. *)
Theorem coefficient_is_memoised
        (k : ThreeSpins) (between : list ThreeSpins) (st : Memo) :
  let first := coeff k st in
  let later := run between (snd first) in
  let second := coeff k later in
  fst second = fst first /\
  snd second = later /\
  analytic_calls (snd second) = analytic_calls later /\
  table later !! k = Some (fst first) /\
  (forall (k' : ThreeSpins) (v : double),
      table st !! k' = Some v ->
      table (snd first) !! k' = Some v /\
      table later !! k' = Some v /\
      table (snd second) !! k' = Some v).
Proof.
  intros first later second.
  assert (Hlater : table later !! k = Some (fst first)).
  { apply calls_keep, coefficient_stored. }
  assert (Hsecond : second = (fst first, later)).
  { apply coefficient_hit, Hlater. }
  rewrite Hsecond. simpl. repeat split; try assumption.
  - now apply coefficient_keeps.
  - now apply calls_keep, coefficient_keeps.
  - now apply calls_keep, coefficient_keeps.
Qed.

(** C8: whatever calls were made before, [coefficient(0,0,0,0,0,0)] is [1.0]
    and [coefficient(1,1,0,-1,1,0)] is the negation of
    [coefficient(1,1,0,1,-1,0)], exactly and hence within [1e-12]; all three
    are read from the table, which the calls leave as it was. *)
Theorem coefficient_spot_checks (earlier : list ThreeSpins) :
  let st := run earlier initial in
  let unit := coefficient calculate_coefficient 0 0 0 0 0 0 st in
  let minus := coefficient calculate_coefficient 1 1 0 (-1) 1 0 (snd unit) in
  let plus := coefficient calculate_coefficient 1 1 0 1 (-1) 0 (snd minus) in
  fst unit = 1 /\
  fst minus = - fst plus /\
  (abs (fst unit - 1) <=? 1e-12) = true /\
  (abs (fst minus - - fst plus) <=? 1e-12) = true /\
  snd plus = st.
Proof.
  intros st unit minus plus.
  assert (Hunit : unit = (1, st)).
  { apply (coefficient_hit (Spins 0 0 0 0 0 0)).
    apply calls_keep. vm_compute. reflexivity. }
  assert (Hminus : minus = (-0.70710678118654757, st)).
  { subst minus. rewrite Hunit.
    apply (coefficient_hit (Spins 1 1 0 (-1) 1 0)).
    apply calls_keep. vm_compute. reflexivity. }
  assert (Hplus : plus = (0.70710678118654757, st)).
  { subst plus. rewrite Hminus.
    apply (coefficient_hit (Spins 1 1 0 1 (-1) 0)).
    apply calls_keep. vm_compute. reflexivity. }
  rewrite Hunit, Hminus, Hplus. simpl. repeat split.
Qed.

End CoefficientFacts.

(** C4: [ThreeSpinHash] is not free of collisions on the valid domain. The
    keys [(0,1,1,0,-1,-1)] and [(1,1,0,-1,1,0)] are distinct, both satisfy
    the triangle, range and parity constraints (and conserve the
    projection), both are keys of the tabulated [lookup_table] with
    different coefficients, and both hash to [6]; so the hash is not
    injective on valid keys. The 189 tabulated keys, all valid and pairwise
    distinct, share 136 hash values. *)
Theorem ThreeSpinHash_collision :
  let a := ClebschGordan.Spins 0 1 1 0 (-1) (-1) in
  let b := ClebschGordan.Spins 1 1 0 (-1) 1 0 in
  a <> b /\
  ClebschGordan.valid a = true /\ ClebschGordan.valid b = true /\
  ClebschGordan.ThreeSpinHash a = 6 /\ ClebschGordan.ThreeSpinHash b = 6 /\
  ClebschGordan.lookup_table !! a = Some 1.00000000000000022%float /\
  ClebschGordan.lookup_table !! b = Some (-0.70710678118654757)%float /\
  ~ (forall x y : ClebschGordan.ThreeSpins,
        ClebschGordan.valid x = true -> ClebschGordan.valid y = true ->
        x <> y ->
        ClebschGordan.ThreeSpinHash x <> ClebschGordan.ThreeSpinHash y) /\
  forallb (fun e => ClebschGordan.valid (fst e)) ClebschGordan.tabulated
    = true /\
  size (dom ClebschGordan.lookup_table) = 189%nat /\
  size (list_to_set (map (fun e => ClebschGordan.ThreeSpinHash (fst e))
                         ClebschGordan.tabulated) : gset Z) = 136%nat.
Proof.
  intros a b.
  split; [discriminate | ].
  do 6 (split; [vm_compute; reflexivity | ]).
  split.
  { intros H. apply (H a b); [reflexivity | reflexivity | discriminate | ].
    vm_compute. reflexivity. }
  split; [vm_compute; reflexivity | ].
  split; vm_compute; reflexivity.
Qed.

(** A run of the cache on a key that is not tabulated, with another call in
    between: the second call returns what the first did and leaves the
    count of evaluations of the formula alone. *)
Lemma coefficient_is_memoised_example :
  let calc := fun j_a _ _ _ _ _ : Z => PrimFloat.of_uint63 (Uint63.of_Z j_a) in
  let k := ClebschGordan.Spins 4 4 0 0 0 0 in
  let first := ClebschGordan.coefficient_at calc k ClebschGordan.initial in
  let later :=
    ClebschGordan.calls calc [ClebschGordan.Spins 6 6 0 0 0 0] (snd first) in
  let second := ClebschGordan.coefficient_at calc k later in
  fst second = fst first /\
  snd second = later /\
  ClebschGordan.analytic_calls (snd second) =
    ClebschGordan.analytic_calls later.
Proof.
  intros calc k first later second.
  destruct (coefficient_is_memoised
              calc k [ClebschGordan.Spins 6 6 0 0 0 0] ClebschGordan.initial)
    as (H1 & H2 & H3 & _).
  exact (conj H1 (conj H2 H3)).
Defined.
